(** * amp-buildpacks/solc: the Solc layer contribution, embedded and verified

    The Go package [solc] (solc/solc.go) contributes a Node.js distribution
    as a layer, installs the Solidity compiler into it with npm, asks the
    installed compiler for its version and writes a Syft bill of materials.

    Go strings are byte strings ([string]), a Go [error] is a message with
    an optional wrapped cause, and every call that leaves the package
    (logger, archive extraction, process environment, child processes, file
    writes) is a step of a state monad over [World] that appends an [Event]
    to the world's trace. What the outside answers to such a call is given
    by a [Platform]. *)

From Stdlib Require Import String Ascii List ZArith Bool Lia.
From stdpp Require Import base gmap strings list.

Local Open Scope string_scope.
Local Open Scope Z_scope.

(** Concatenation computes on a string whose head is known. *)
#[local] Arguments String.append !_ _ / : simpl nomatch.

(** ** Go strings *)

Definition LF : string := String (ascii_of_nat 10) "".

(** [contains s sub]: [sub] occurs in [s] (strings.Contains, as a
    proposition). *)
Definition contains (s sub : string) : Prop :=
  exists pre post, s = pre +:+ sub +:+ post.

Module strings.

Definition byte_is (c : ascii) (n : N) : bool := (N_of_ascii c =? n)%N.

(** The ASCII white space of Go's [asciiSpace] table. *)
Definition asciiSpace (c : ascii) : bool :=
  byte_is c 9 || byte_is c 10 || byte_is c 11 || byte_is c 12
  || byte_is c 13 || byte_is c 32.

(** [unicode.IsSpace] on the runes encoded on two bytes: U+0085 and
    U+00A0. *)
Definition space2 (c d : ascii) : bool :=
  byte_is c 194 && (byte_is d 133 || byte_is d 160).

(** [unicode.IsSpace] on the runes encoded on three bytes: U+1680,
    U+2000 to U+200A, U+2028, U+2029, U+202F, U+205F and U+3000. *)
Definition space3 (c d e : ascii) : bool :=
  (byte_is c 225 && byte_is d 154 && byte_is e 128)
  || (byte_is c 226 && byte_is d 128
      && ((128 <=? N_of_ascii e)%N && (N_of_ascii e <=? 138)%N
          || byte_is e 168 || byte_is e 169 || byte_is e 175))
  || (byte_is c 226 && byte_is d 129 && byte_is e 159)
  || (byte_is c 227 && byte_is d 128 && byte_is e 128).

(** Strips the white-space runes met at the front of a byte sequence.
    [sp2] and [sp3] receive the bytes in the order they are met, so the
    same loop serves [TrimLeftFunc] and, on the reversed string,
    [TrimRightFunc]. *)
Fixpoint trim_front (sp2 : ascii -> ascii -> bool)
    (sp3 : ascii -> ascii -> ascii -> bool) (s : list ascii) : list ascii :=
  match s with
  | c :: s1 =>
      if asciiSpace c then trim_front sp2 sp3 s1
      else match s1 with
           | d :: s2 =>
               if sp2 c d then trim_front sp2 sp3 s2
               else match s2 with
                    | e :: s3 =>
                        if sp3 c d e then trim_front sp2 sp3 s3 else s
                    | [] => s
                    end
           | [] => s
           end
  | [] => []
  end.

Definition TrimLeft (s : list ascii) : list ascii :=
  trim_front space2 space3 s.

Definition TrimRight (s : list ascii) : list ascii :=
  rev (trim_front (fun d c => space2 c d) (fun e d c => space3 c d e) (rev s)).

(** [strings.TrimSpace]: leading and trailing white space, as defined by
    Unicode, removed. *)
Definition TrimSpace (s : string) : string :=
  string_of_list_ascii (TrimRight (TrimLeft (list_ascii_of_string s))).

(** [strings.Join]. *)
Fixpoint Join (elems : list string) (sep : string) : string :=
  match elems with
  | [] => ""
  | [e] => e
  | e :: rest => e +:+ sep +:+ Join rest sep
  end.

End strings.

(** ** Go errors and formatting *)

Inductive error : Type :=
  | errorString (msg : string)
  | wrapError (msg : string) (err : error).

Definition Error (e : error) : string :=
  match e with
  | errorString msg => msg
  | wrapError msg _ => msg
  end.

Definition Unwrap (e : error) : option error :=
  match e with
  | errorString _ => None
  | wrapError _ err => Some err
  end.

Module fmt.

Definition is_verb (c : ascii) : bool :=
  Ascii.eqb c "s" || Ascii.eqb c "w".

(** [fmt.Sprintf] for the verbs the package uses, [%s] and [%w], on
    operands already rendered as strings (a string operand is itself, an
    error operand is its [Error]); [%%] is a percent sign, and the verbs
    the package does not use are left in place. *)
Fixpoint Sprintf (format : string) (a : list string) : string :=
  match format with
  | String c f1 =>
      if Ascii.eqb c "%" then
        match f1 with
        | String v f2 =>
            if is_verb v then
              match a with
              | x :: a' => x +:+ Sprintf f2 a'
              | [] => "%!" +:+ String v "(MISSING)" +:+ Sprintf f2 []
              end
            else if Ascii.eqb v "%" then String v (Sprintf f2 a)
            else String c (String v (Sprintf f2 a))
        | EmptyString => "%!(NOVERB)"
        end
      else String c (Sprintf f1 a)
  | EmptyString => ""
  end.

(** [fmt.Errorf] whose format ends in [%w]: the message is formatted with
    the cause's text, and the cause is kept for [Unwrap]. *)
Definition Errorf (format : string) (a : list string) (cause : error) : error :=
  wrapError (Sprintf format (a ++ [Error cause])) cause.

End fmt.


(** ** The types of the libraries the package is written against *)

Module os.

(** [*os.File]: the package only asks an open file for its name. *)
Record File : Type := { Name : string }.

End os.

Module bard.

(** [bard.Logger]: the package hands a logger on and calls it; what the
    logger prints is the library's business, a call is an [Event]. *)
Record Logger : Type := { Label : string }.

(** The zero value of the struct. *)
Definition zero : Logger := {| Label := "" |}.

End bard.

Module libpak.

(** Modelled from the spec: [libpak.BuildpackDependency], the Dependency
    Descriptor, is declared in the libpak library and not in this
    repository. The fields are those of the spec's data model (id, name,
    version, uri, checksum, stripComponents), under the keys that
    buildpack.toml gives them. *)
Record BuildpackDependency : Type := {
  ID : string;
  Name : string;
  Version : string;
  URI : string;
  SHA256 : string;
  StripComponents : Z
}.

(** Modelled from the spec: [libpak.DependencyCache], the fetch
    collaborator, supplies an already downloaded and verified artifact
    for a descriptor. *)
Record DependencyCache : Type := {
  Artifact : BuildpackDependency -> os.File
}.

End libpak.

Module libcnb.

Record LayerTypes : Type := { Build : bool; Cache : bool; Launch : bool }.

(** Modelled from the spec: [libcnb.Layer] with the fields of the spec's
    data model; [Metadata] is the descriptor persisted by the last
    contribution, [None] when the layer was never contributed. *)
Record Layer : Type := {
  LayerName : string;
  Path : string;
  Types : LayerTypes;
  Metadata : option libpak.BuildpackDependency
}.

(** [libcnb.Layer{}]. *)
Definition zero : Layer :=
  {| LayerName := ""; Path := "";
     Types := {| Build := false; Cache := false; Launch := false |};
     Metadata := None |}.

Inductive SBOMFormat : Type := CycloneDXJSON | SPDXJSON | SyftJSON.

Record Process : Type := {
  Type_ : string;
  Command : string;
  Arguments : list string;
  Direct : bool;
  WorkingDirectory : string;
  Default : bool
}.

End libcnb.

Module libpak_layer.

(** Modelled from the spec: [libpak.DependencyLayerContributor] (libpak's
    layer.go), the Layer Contributor, keeps the descriptor, the fetch
    collaborator, the layer types it was constructed with and a logger. *)
Record DependencyLayerContributor : Type := {
  Dependency : libpak.BuildpackDependency;
  DependencyCache : libpak.DependencyCache;
  ExpectedTypes : libcnb.LayerTypes;
  Logger : bard.Logger
}.

(** Modelled from the spec: [libpak.NewDependencyLayerContributor] keeps
    what it is given; the logger is the zero logger until one is set. *)
Definition NewDependencyLayerContributor
    (dependency : libpak.BuildpackDependency)
    (cache : libpak.DependencyCache) (types : libcnb.LayerTypes) :
    DependencyLayerContributor :=
  {| Dependency := dependency; DependencyCache := cache;
     ExpectedTypes := types; Logger := bard.zero |}.

End libpak_layer.

Module sbom.

Record SyftLocation : Type := { LocationPath : string }.

Record SyftArtifact : Type := {
  ID : string;
  Name : string;
  Version : string;
  Type_ : string;
  FoundBy : string;
  Locations : list SyftLocation;
  Licenses : list string;
  CPEs : list string;
  PURL : string
}.

(** What [sbom.NewSyftDependency] is given: the directory described and
    its artifacts. *)
Record SyftDependency : Type := {
  Target : string;
  Artifacts : list SyftArtifact
}.

Definition NewSyftDependency (dependencyPath : string)
    (artifacts : list SyftArtifact) : SyftDependency :=
  {| Target := dependencyPath; Artifacts := artifacts |}.

End sbom.

Module effect.

(** The two output streams of a child process. *)
Inductive Stream : Type := OnStdout | OnStderr.

(** [effect.Execution]; [Stdout] and [Stderr] are [io.Writer]s, here
    addresses of [bytes.Buffer]s in the world's heap. *)
Record Execution : Type := {
  Command : string;
  Args : list string;
  Stdout : nat;
  Stderr : nat
}.

(** [effect.Executor], of which the package constructs one
    implementation: the one that starts the command as a child process. *)
Inductive Executor : Type := NewExecutor.

End effect.

(** ** The world outside the package *)

(** A call that leaves the package, with its arguments and, where the call
    can fail, how it ended. *)
Inductive Event : Type :=
  | EvBodyf (logger : bard.Logger) (format : string) (a : list string)
  | EvDebugf (logger : bard.Logger) (format : string) (path : string)
      (dep : sbom.SyftDependency)
  | EvExtract (artifact : os.File) (destination : string)
      (stripComponents : Z) (outcome : option error)
  | EvSetenv (key value : string) (outcome : option error)
  | EvExecute (x : effect.Execution)
      (output : list (effect.Stream * string)) (outcome : option error)
  | EvWriteTo (path : string) (dep : sbom.SyftDependency)
      (outcome : option error).

(** The part of the world that the package's own calls read and write.
    What an extraction or a child process leaves on disk is not part of
    it: [files] holds the bills of materials written through [WriteTo],
    and nothing else. *)
Record World : Type := {
  (** the environment of the process *)
  environ : gmap string string;
  (** the [bytes.Buffer]s allocated so far; a [*bytes.Buffer] is an index *)
  heap : list string;
  (** the bills of materials on disk, by path *)
  files : gmap string sbom.SyftDependency;
  (** the Layer Metadata Store: the descriptor persisted for a layer path *)
  store : gmap string libpak.BuildpackDependency;
  (** the calls made so far, oldest first *)
  trace : list Event
}.

(** What the outside answers. Every answer may depend on the whole world,
    so on everything that happened before. [filepath_Join] and
    [Layer_SBOMPath] are the library functions [filepath.Join] (on two
    elements) and [libcnb.Layer.SBOMPath]. *)
Record Platform : Type := {
  filepath_Join : string -> string -> string;
  Layer_SBOMPath : libcnb.Layer -> libcnb.SBOMFormat -> string;
  extract_outcome : World -> os.File -> string -> Z -> option error;
  setenv_outcome : World -> string -> string -> option error;
  process_outcome :
    World -> string -> list string ->
    list (effect.Stream * string) * option error;
  write_outcome : World -> string -> sbom.SyftDependency -> option error
}.

(** ** The state monad of the embedding *)

Definition M (A : Type) : Type := World -> A * World.

Definition ret {A : Type} (a : A) : M A := fun w => (a, w).

Definition bind {A B : Type} (m : M A) (k : A -> M B) : M B :=
  fun w => let (a, w') := m w in k a w'.

Declare Scope go_scope.
Delimit Scope go_scope with go.
Notation "x <- m ;; k" := (bind m (fun x => k))
  (at level 100, m at next level, right associativity) : go_scope.
Notation "m ;; k" := (bind m (fun _ => k))
  (at level 100, right associativity) : go_scope.
Local Open Scope go_scope.

Definition emit (e : Event) : M unit :=
  fun w => (tt, {| environ := environ w; heap := heap w; files := files w;
                   store := store w; trace := trace w ++ [e] |}).

Definition ask {A : Type} (f : World -> A) : M A := fun w => (f w, w).

(** Go's [if err := m; err != nil { return libcnb.Layer{}, handler }]
    followed by [k]; the handler may read the state, as the operands of
    [fmt.Errorf] do. *)
Definition check (m : M (option error)) (handler : error -> M error)
    (k : M (libcnb.Layer * option error)) : M (libcnb.Layer * option error) :=
  outcome <- m ;;
  match outcome with
  | Some err => e <- handler err ;; ret (libcnb.zero, Some e)
  | None => k
  end.

Notation "'try' m 'or' handler ;; k" := (check m handler k)
  (at level 100, m at next level, handler at next level,
   right associativity) : go_scope.

(** ** The calls *)

Section Calls.

Variable P : Platform.

Definition Logger_Bodyf (l : bard.Logger) (format : string)
    (a : list string) : M unit :=
  emit (EvBodyf l format a).

Definition Logger_Debugf (l : bard.Logger) (format : string)
    (path : string) (dep : sbom.SyftDependency) : M unit :=
  emit (EvDebugf l format path dep).

(** [crush.Extract]: whether the archive expands is the platform's. *)
Definition crush_Extract (artifact : os.File) (destination : string)
    (stripComponents : Z) : M (option error) :=
  outcome <- ask (fun w =>
    extract_outcome P w artifact destination stripComponents) ;;
  emit (EvExtract artifact destination stripComponents outcome) ;;
  ret outcome.

Definition os_LookupEnv (key : string) : M (option string) :=
  ask (fun w => environ w !! key).

Definition os_Setenv (key value : string) : M (option error) :=
  outcome <- ask (fun w => setenv_outcome P w key value) ;;
  emit (EvSetenv key value outcome) ;;
  match outcome with
  | Some _ => ret outcome
  | None =>
      fun w => (None, {| environ := <[key := value]> (environ w);
                         heap := heap w; files := files w;
                         store := store w; trace := trace w |})
  end.

(** [sherpa.AppendToEnvVar]: the current value of the variable, when it
    is set, followed by the given values, joined by the delimiter. *)
Definition sherpa_AppendToEnvVar (name delimiter : string)
    (values : list string) : M string :=
  s <- os_LookupEnv name ;;
  ret (strings.Join (option_list s ++ values) delimiter).

(** [&bytes.Buffer{}] *)
Definition bytes_NewBuffer : M nat :=
  fun w => (length (heap w),
            {| environ := environ w; heap := heap w ++ [""];
               files := files w; store := store w; trace := trace w |}).

Definition Buffer_Write (b : nat) (data : string) : M unit :=
  fun w => (tt, {| environ := environ w;
                   heap := alter (fun s => s +:+ data) b (heap w);
                   files := files w; store := store w; trace := trace w |}).

Definition Buffer_String (b : nat) : M string :=
  ask (fun w => default "" (heap w !! b)).

(** The writer a child process's stream is connected to. *)
Definition writer_of (x : effect.Execution) (s : effect.Stream) : nat :=
  match s with
  | effect.OnStdout => effect.Stdout x
  | effect.OnStderr => effect.Stderr x
  end.

(** What the child process prints, piece by piece in the order it is
    printed, each piece on the writer of its stream. *)
Fixpoint write_output (x : effect.Execution)
    (output : list (effect.Stream * string)) : M unit :=
  match output with
  | [] => ret tt
  | (s, data) :: rest =>
      Buffer_Write (writer_of x s) data ;; write_output x rest
  end.

(** [effect.Executor.Execute]: runs the command to its end; what it
    prints and how it ends is the platform's. *)
Definition Executor_Execute (e : effect.Executor) (x : effect.Execution) :
    M (option error) :=
  run <- ask (fun w =>
    process_outcome P w (effect.Command x) (effect.Args x)) ;;
  write_output x (fst run) ;;
  emit (EvExecute x (fst run) (snd run)) ;;
  ret (snd run).

(** [sbom.SyftDependency.WriteTo]. *)
Definition SyftDependency_WriteTo (dep : sbom.SyftDependency)
    (path : string) : M (option error) :=
  outcome <- ask (fun w => write_outcome P w path dep) ;;
  emit (EvWriteTo path dep outcome) ;;
  match outcome with
  | Some _ => ret outcome
  | None =>
      fun w => (None, {| environ := environ w; heap := heap w;
                         files := <[path := dep]> (files w);
                         store := store w; trace := trace w |})
  end.

(** Modelled from the spec: step 4 of the Layer Contributor, the
    descriptor becomes the persisted metadata of the layer at [path]. *)
Definition persist (path : string) (d : libpak.BuildpackDependency) :
    M unit :=
  fun w => (tt, {| environ := environ w; heap := heap w; files := files w;
                   store := <[path := d]> (store w); trace := trace w |}).

(** Modelled from the spec: steps 1 and 2 of the Layer Contributor,
    whether the layer's metadata is present and has the cache key of [d];
    the cache key is the descriptor's checksum. *)
Definition cached (layer : libcnb.Layer) (d : libpak.BuildpackDependency) :
    bool :=
  match libcnb.Metadata layer with
  | Some m => String.eqb (libpak.SHA256 m) (libpak.SHA256 d)
  | None => false
  end.

(** Modelled from the spec: [libpak.DependencyLayerContributor.Contribute]
    is the libpak library's and not in this repository. Section 4.1 of the
    spec: (1) the cache key is the descriptor's checksum; (2) when the
    layer's metadata is present and has that key, the layer is returned
    unchanged and nothing else happens; (3) otherwise the rebuild function
    is invoked on the fetched artifact; (4) the descriptor is persisted as
    the layer's metadata only after the rebuild has succeeded. *)
Definition DependencyLayerContributor_Contribute
    (d : libpak_layer.DependencyLayerContributor) (layer : libcnb.Layer)
    (f : os.File -> M (libcnb.Layer * option error)) :
    M (libcnb.Layer * option error) :=
  let dependency := libpak_layer.Dependency d in
  if cached layer dependency then ret (layer, None)
  else
    let artifact :=
      libpak.Artifact (libpak_layer.DependencyCache d) dependency in
    result <- f artifact ;;
    match snd result with
    | Some err => ret (libcnb.zero, Some err)
    | None =>
        persist (libcnb.Path layer) dependency ;;
        ret ({| libcnb.LayerName := libcnb.LayerName (fst result);
                libcnb.Path := libcnb.Path (fst result);
                libcnb.Types := libcnb.Types (fst result);
                libcnb.Metadata := Some dependency |}, None)
    end.

End Calls.

(** ** Package solc (solc/solc.go) *)

Record Solc : Type := {
  LayerContributor : libpak_layer.DependencyLayerContributor;
  Logger : bard.Logger;
  Executor : effect.Executor
}.

Definition NewSolc (dependency : libpak.BuildpackDependency)
    (cache : libpak.DependencyCache) : Solc :=
  let contributor :=
    libpak_layer.NewDependencyLayerContributor dependency cache
      {| libcnb.Build := true; libcnb.Cache := true; libcnb.Launch := true |} in
  {| LayerContributor := contributor;
     Logger := bard.zero;
     Executor := effect.NewExecutor |}.

(** The one entry of the bill of materials, for the version found. *)
Definition solc_artifact (version : string) : sbom.SyftArtifact :=
  {| sbom.ID := "solc";
     sbom.Name := "Solc";
     sbom.Version := version;
     sbom.Type_ := "UnknownPackage";
     sbom.FoundBy := "amp-buildpacks/solc";
     sbom.Locations :=
       [ {| sbom.LocationPath := "amp-buildpacks/solc/solc/solc.go" |} ];
     sbom.Licenses := ["Apache-2.0"];
     sbom.CPEs :=
       [fmt.Sprintf "cpe:2.3:a:solc:solc:%s:*:*:*:*:*:*:*" [version]];
     sbom.PURL := fmt.Sprintf "pkg:generic/solc@%s" [version] |}.

Section Package.

Variable P : Platform.

(** The function literal that [Contribute] passes to the layer
    contributor (solc.go, lines 53 to 110); [r] and [layer] are the
    variables it captures. *)
Definition rebuild (r : Solc) (layer : libcnb.Layer) (artifact : os.File) :
    M (libcnb.Layer * option error) :=
  let bin := filepath_Join P (libcnb.Path layer) "bin" in

  Logger_Bodyf (Logger r) "Expanding %s to %s" [os.Name artifact; bin] ;;
  try crush_Extract P artifact (libcnb.Path layer) 1
  or (fun err => ret (fmt.Errorf ("unable to expand %s" +:+ LF +:+ "%w")
                        [os.Name artifact] err)) ;;

  Logger_Bodyf (Logger r) "Setting %s in PATH" [bin] ;;
  path <- sherpa_AppendToEnvVar "PATH" ":" [bin] ;;
  try os_Setenv P "PATH" path
  or (fun err => ret (fmt.Errorf ("unable to set $PATH" +:+ LF +:+ "%w")
                        [] err)) ;;

  buf <- bytes_NewBuffer ;;
  let npm := filepath_Join P bin "npm" in
  try Executor_Execute P (Executor r)
        {| effect.Command := npm;
           effect.Args := ["install"; "solc"; "-g"];
           effect.Stdout := buf;
           effect.Stderr := buf |}
  or (fun err =>
        out <- Buffer_String buf ;;
        ret (fmt.Errorf ("error executing '%s':" +:+ LF
                         +:+ " Combined Output: %s: " +:+ LF +:+ "%w")
               [npm; out] err)) ;;

  buf <- bytes_NewBuffer ;;
  try Executor_Execute P (Executor r)
        {| effect.Command := "solcjs";
           effect.Args := ["--version"];
           effect.Stdout := buf;
           effect.Stderr := buf |}
  or (fun err =>
        out <- Buffer_String buf ;;
        ret (fmt.Errorf ("error executing 'solcjs --version':" +:+ LF
                         +:+ " Combined Output: %s: " +:+ LF +:+ "%w")
               [out] err)) ;;
  out <- Buffer_String buf ;;
  let version := strings.TrimSpace out in
  Logger_Bodyf (Logger r) "Checking solc version: %s" [version] ;;

  let sbomPath := Layer_SBOMPath P layer libcnb.SyftJSON in
  let dep :=
    sbom.NewSyftDependency (libcnb.Path layer) [solc_artifact version] in
  Logger_Debugf (Logger r) "Writing Syft SBOM at %s: %+v" sbomPath dep ;;
  try SyftDependency_WriteTo P dep sbomPath
  or (fun err => ret (fmt.Errorf ("unable to write SBOM" +:+ LF +:+ "%w")
                        [] err)) ;;
  ret (layer, None).

Definition Contribute (r : Solc) (layer : libcnb.Layer) :
    M (libcnb.Layer * option error) :=
  let r :=
    {| LayerContributor :=
         {| libpak_layer.Dependency :=
              libpak_layer.Dependency (LayerContributor r);
            libpak_layer.DependencyCache :=
              libpak_layer.DependencyCache (LayerContributor r);
            libpak_layer.ExpectedTypes :=
              libpak_layer.ExpectedTypes (LayerContributor r);
            libpak_layer.Logger := Logger r |};
       Logger := Logger r;
       Executor := Executor r |} in
  DependencyLayerContributor_Contribute (LayerContributor r) layer
    (rebuild r layer).

End Package.

Definition BuildProcessTypes (r : Solc) (enableProcess : string) :
    list libcnb.Process * option error :=
  let processes : list libcnb.Process := [] in
  let processes :=
    if String.eqb enableProcess "true" then
      (processes ++ [ {| libcnb.Type_ := "web";
                         libcnb.Command := "npm start";
                         libcnb.Arguments := [];
                         libcnb.Direct := false;
                         libcnb.WorkingDirectory := "";
                         libcnb.Default := true |} ])%list
    else processes in
  (processes, None).

(** ** A platform and a world to run the package on *)

Module Run.

Definition node : libpak.BuildpackDependency :=
  {| libpak.ID := "node";
     libpak.Name := "Node Engine";
     libpak.Version := "20.10.0";
     libpak.URI :=
       "https://nodejs.org/dist/v20.10.0/node-v20.10.0-linux-x64.tar.xz";
     libpak.SHA256 :=
       "3fe4ec5d70c8b4ffc1461dec83ab23fc70124e137c4cbbe1ccc9d6ae6ec04a7d";
     libpak.StripComponents := 1 |}.

Definition cache : libpak.DependencyCache :=
  {| libpak.Artifact := fun d =>
       {| os.Name := "/tmp/" +:+ libpak.SHA256 d +:+ "/node.tar.xz" |} |}.

Definition initial : World :=
  {| environ := {[ "PATH" := "/usr/bin" ]};
     heap := [];
     files := ∅;
     store := ∅;
     trace := [] |}.

Definition layer : libcnb.Layer :=
  {| libcnb.LayerName := "solc";
     libcnb.Path := "/layers/solc/solc";
     libcnb.Types := {| libcnb.Build := false; libcnb.Cache := false;
                        libcnb.Launch := false |};
     libcnb.Metadata := None |}.

(** A platform on which every call succeeds; npm prints on both streams
    and the compiler answers with its version and a line feed. *)
Definition healthy : Platform :=
  {| filepath_Join := fun a b => a +:+ "/" +:+ b;
     Layer_SBOMPath := fun l _ => libcnb.Path l +:+ ".sbom.syft.json";
     extract_outcome := fun _ _ _ _ => None;
     setenv_outcome := fun _ _ _ => None;
     process_outcome := fun _ command _ =>
       if String.eqb command "solcjs"
       then ([(effect.OnStdout, "0.8.20" +:+ LF)], None)
       else ([(effect.OnStderr, "npm warn ");
              (effect.OnStdout, "added 9 packages");
              (effect.OnStderr, LF)], None);
     write_outcome := fun _ _ _ => None |}.

Definition solc : Solc := NewSolc node cache.

(** The layer as a later build finds it, restored with the metadata the
    first build persisted. *)
Definition restored : libcnb.Layer :=
  {| libcnb.LayerName := "solc";
     libcnb.Path := "/layers/solc/solc";
     libcnb.Types := {| libcnb.Build := true; libcnb.Cache := true;
                        libcnb.Launch := true |};
     libcnb.Metadata := Some node |}.

(** A descriptor whose archive keeps its files two directories deep. *)
Definition nested : libpak.BuildpackDependency :=
  {| libpak.ID := "node";
     libpak.Name := "Node Engine";
     libpak.Version := "20.10.0";
     libpak.URI := "https://example.org/dist/node/node-v20.10.0.tar.xz";
     libpak.SHA256 :=
       "9a40e2d3b1c0f9a1f1d5c1b2a3f4e5d6c7b8a9f0e1d2c3b4a5f6e7d8c9b0a1f2";
     libpak.StripComponents := 2 |}.

(** The archive does not expand. *)
Definition corrupt : Platform :=
  {| filepath_Join := filepath_Join healthy;
     Layer_SBOMPath := Layer_SBOMPath healthy;
     extract_outcome := fun _ _ _ _ =>
       Some (errorString "xz: data is corrupt");
     setenv_outcome := setenv_outcome healthy;
     process_outcome := process_outcome healthy;
     write_outcome := write_outcome healthy |}.

(** npm cannot reach its registry: it complains on both streams and
    exits with status 1. *)
Definition offline : Platform :=
  {| filepath_Join := filepath_Join healthy;
     Layer_SBOMPath := Layer_SBOMPath healthy;
     extract_outcome := extract_outcome healthy;
     setenv_outcome := setenv_outcome healthy;
     process_outcome := fun _ command _ =>
       if String.eqb command "solcjs"
       then ([(effect.OnStdout, "0.8.20" +:+ LF)], None)
       else ([(effect.OnStdout, "npm install solc" +:+ LF);
              (effect.OnStderr, "npm error network ENOTFOUND")],
             Some (errorString "exit status 1"));
     write_outcome := write_outcome healthy |}.

(** npm succeeds but the installed compiler does not start. *)
Definition broken_compiler : Platform :=
  {| filepath_Join := filepath_Join healthy;
     Layer_SBOMPath := Layer_SBOMPath healthy;
     extract_outcome := extract_outcome healthy;
     setenv_outcome := setenv_outcome healthy;
     process_outcome := fun _ command _ =>
       if String.eqb command "solcjs"
       then ([(effect.OnStderr, "solcjs: not found")],
             Some (errorString "exit status 127"))
       else ([(effect.OnStdout, "added 9 packages")], None);
     write_outcome := write_outcome healthy |}.

(** The layers directory cannot be written to. *)
Definition read_only : Platform :=
  {| filepath_Join := filepath_Join healthy;
     Layer_SBOMPath := Layer_SBOMPath healthy;
     extract_outcome := extract_outcome healthy;
     setenv_outcome := setenv_outcome healthy;
     process_outcome := process_outcome healthy;
     write_outcome := fun _ _ _ =>
       Some (errorString "open: read-only file system") |}.

(** The process environment cannot be changed. *)
Definition locked_env : Platform :=
  {| filepath_Join := filepath_Join healthy;
     Layer_SBOMPath := Layer_SBOMPath healthy;
     extract_outcome := extract_outcome healthy;
     setenv_outcome := fun _ _ _ =>
       Some (errorString "setenv: invalid argument");
     process_outcome := process_outcome healthy;
     write_outcome := write_outcome healthy |}.

(** A world in which a bill of materials of another layer is on disk and
    another variable is set. *)
Definition busy : World :=
  {| environ := {[ "PATH" := "/usr/bin"; "HOME" := "/home/cnb" ]};
     heap := [];
     files := {[ "/layers/solc/other.sbom.syft.json" :=
                   sbom.NewSyftDependency "/layers/solc/other" [] ]};
     store := ∅;
     trace := [] |}.

End Run.

(** ** Observing a run *)

(** The calls made between two worlds of one run. *)
Definition events_since (w w' : World) : list Event :=
  drop (length (trace w)) (trace w').

Fixpoint count (p : Event -> bool) (l : list Event) : nat :=
  match l with
  | [] => 0%nat
  | ev :: l' => if p ev then S (count p l') else count p l'
  end.

(** The first statement of the function literal: one such call is made each
    time the literal is entered. *)
Definition is_entry (ev : Event) : bool :=
  match ev with
  | EvBodyf _ format _ => String.eqb format "Expanding %s to %s"
  | _ => false
  end.

Definition is_extract (ev : Event) : bool :=
  match ev with EvExtract _ _ _ _ => true | _ => false end.

Definition is_setup (ev : Event) : bool :=
  match ev with EvExecute _ _ _ => true | _ => false end.

Definition is_write (ev : Event) : bool :=
  match ev with EvWriteTo _ _ _ => true | _ => false end.

(** The failure kinds of the spec's taxonomy. *)
Inductive Failure : Type :=
  | ExtractionFailed
  | EnvironmentUpdateFailed
  | SetupActionFailed
  | ProvenanceWriteFailed.

(** The failure a call reports, if it reports one. *)
Definition failure_of (ev : Event) : option Failure :=
  match ev with
  | EvExtract _ _ _ (Some _) => Some ExtractionFailed
  | EvSetenv _ _ (Some _) => Some EnvironmentUpdateFailed
  | EvExecute _ _ (Some _) => Some SetupActionFailed
  | EvWriteTo _ _ (Some _) => Some ProvenanceWriteFailed
  | _ => None
  end.

Definition reports (k : Failure) (ev : Event) : bool :=
  match failure_of ev, k with
  | Some ExtractionFailed, ExtractionFailed
  | Some EnvironmentUpdateFailed, EnvironmentUpdateFailed
  | Some SetupActionFailed, SetupActionFailed
  | Some ProvenanceWriteFailed, ProvenanceWriteFailed => true
  | _, _ => false
  end.

(** What a reader of a failure message can tell from how it starts. *)
Definition classify (msg : string) : option Failure :=
  if String.prefix "unable to expand" msg then Some ExtractionFailed
  else if String.prefix "unable to set $PATH" msg
       then Some EnvironmentUpdateFailed
  else if String.prefix "error executing" msg then Some SetupActionFailed
  else if String.prefix "unable to write SBOM" msg
       then Some ProvenanceWriteFailed
  else None.

(** Everything a child process printed, on either stream, in the order it
    was printed. *)
Definition printed (output : list (effect.Stream * string)) : string :=
  fold_right (fun piece rest => snd piece +:+ rest) "" output.

(** The arguments [stripComponents] of the extractions in a trace. *)
Fixpoint strips (l : list Event) : list Z :=
  match l with
  | [] => []
  | EvExtract _ _ n _ :: l' => n :: strips l'
  | _ :: l' => strips l'
  end.

(** What the queries [solcjs --version] of a trace printed. *)
Fixpoint version_answers (l : list Event) : list string :=
  match l with
  | [] => []
  | EvExecute x output _ :: l' =>
      match effect.Args x with
      | [a] =>
          if String.eqb a "--version" && String.eqb (effect.Command x) "solcjs"
          then printed output :: version_answers l'
          else version_answers l'
      | _ => version_answers l'
      end
  | _ :: l' => version_answers l'
  end.

(** [merged h ev]: when [ev] is the run of a child process, its two
    streams were connected to one buffer, and in the heap [h] that buffer
    holds everything the process printed. *)
Definition merged (h : list string) (ev : Event) : Prop :=
  match ev with
  | EvExecute x output _ =>
      effect.Stderr x = effect.Stdout x
      /\ h !! effect.Stdout x = Some (printed output)
  | _ => True
  end.

(** The bills of materials written successfully in a trace. *)
Fixpoint written (l : list Event) : list (string * sbom.SyftDependency) :=
  match l with
  | [] => []
  | EvWriteTo path dep None :: l' => (path, dep) :: written l'
  | _ :: l' => written l'
  end.

(** The error a call reported, if it reported one. *)
Definition cause_of (ev : Event) : option error :=
  match ev with
  | EvExtract _ _ _ outcome => outcome
  | EvSetenv _ _ outcome => outcome
  | EvExecute _ _ outcome => outcome
  | EvWriteTo _ _ outcome => outcome
  | EvBodyf _ _ _ | EvDebugf _ _ _ _ => None
  end.

Definition failed (ev : Event) : bool :=
  match cause_of ev with Some _ => true | None => false end.

(** The steps of the function literal, as its calls show them. *)
Inductive Step : Type :=
  | Announce
  | Expand
  | SetPath
  | Install
  | Query
  | Describe
  | WriteSBOM
  | OtherStep.

Definition step_of (ev : Event) : Step :=
  match ev with
  | EvBodyf _ _ _ => Announce
  | EvDebugf _ _ _ _ => Describe
  | EvExtract _ _ _ _ => Expand
  | EvSetenv key _ _ => if String.eqb key "PATH" then SetPath else OtherStep
  | EvExecute x _ _ =>
      match effect.Args x with
      | a :: _ =>
          if String.eqb a "install" then Install
          else if String.eqb a "--version" then Query
          else OtherStep
      | [] => OtherStep
      end
  | EvWriteTo _ _ _ => WriteSBOM
  end.

(** The order in which solc.go lists the steps. *)
Definition pipeline : list Step :=
  [Announce; Expand; Announce; SetPath; Install; Query; Announce; Describe;
   WriteSBOM].

(** The variables set successfully in a trace, with their values. *)
Fixpoint setenvs (l : list Event) : list (string * string) :=
  match l with
  | [] => []
  | EvSetenv key value None :: l' => (key, value) :: setenvs l'
  | _ :: l' => setenvs l'
  end.

(** The versions recorded in the bills of materials written in a trace. *)
Definition recorded_versions (l : list Event) : list string :=
  flat_map (fun entry => map sbom.Version (sbom.Artifacts (snd entry)))
    (written l).

(** ASCII white space at the front of a byte sequence. *)
Definition starts_with_space (s : list ascii) : bool :=
  match s with
  | c :: _ => strings.asciiSpace c
  | [] => false
  end.

(** No ASCII white space at either end of a string. *)
Definition clean_ends (s : string) : bool :=
  negb (starts_with_space (list_ascii_of_string s))
  && negb (starts_with_space (rev (list_ascii_of_string s))).

(** Only ASCII white space. *)
Definition all_space (s : string) : bool :=
  forallb strings.asciiSpace (list_ascii_of_string s).

(** An ASCII byte that is not white space. *)
Definition plain (c : ascii) : bool :=
  (N_of_ascii c <? 128)%N && negb (strings.asciiSpace c).

(** A string that starts and ends with a plain byte. *)
Definition plain_ends (s : string) : bool :=
  match list_ascii_of_string s, rev (list_ascii_of_string s) with
  | c :: _, d :: _ => plain c && plain d
  | _, _ => false
  end.

Definition same_step (a b : Step) : bool :=
  match a, b with
  | Announce, Announce | Expand, Expand | SetPath, SetPath
  | Install, Install | Query, Query | Describe, Describe
  | WriteSBOM, WriteSBOM | OtherStep, OtherStep => true
  | _, _ => false
  end.

(** The call [ev] is the step [s]. *)
Definition made (s : Step) (ev : Event) : bool := same_step (step_of ev) s.

(** The call [ev] is the step [s] and reported no failure. *)
Definition succeeded (s : Step) (ev : Event) : bool :=
  made s ev && negb (failed ev).

(** [ev], when it is a call of [WriteTo], is for the Syft bill of
    materials of [layer]: its path, the layer's directory, and the one
    entry of the compiler for some version. *)
Definition for_sbom_of (P : Platform) (layer : libcnb.Layer) (ev : Event) :
    Prop :=
  match ev with
  | EvWriteTo path dep _ =>
      path = Layer_SBOMPath P layer libcnb.SyftJSON
      /\ exists version,
           dep = sbom.NewSyftDependency (libcnb.Path layer)
                   [solc_artifact version]
  | _ => True
  end.

(** ** The runs of the function literal, by the step that ends them *)

(** The world [w] after a run that has set the environment to [env],
    allocated the buffers [bufs], left the files [fs] and made the calls
    [evs]. *)
Definition after (w : World) (env : gmap string string) (bufs : list string)
    (fs : gmap string sbom.SyftDependency) (evs : list Event) : World :=
  {| environ := env; heap := heap w ++ bufs; files := fs; store := store w;
     trace := trace w ++ evs |}.

Section Runs.

Variables (P : Platform) (r : Solc) (layer : libcnb.Layer)
  (artifact : os.File) (w : World).

Let bin := filepath_Join P (libcnb.Path layer) "bin".
Let npm := filepath_Join P bin "npm".
Let path :=
  strings.Join (option_list (environ w !! "PATH") ++ [bin]) ":".
Let path_set := <["PATH" := path]> (environ w).
Let sbomPath := Layer_SBOMPath P layer libcnb.SyftJSON.
Let dep (version : string) :=
  sbom.NewSyftDependency (libcnb.Path layer) [solc_artifact version].

Let expanding :=
  EvBodyf (Logger r) "Expanding %s to %s" [os.Name artifact; bin].
Let extract := EvExtract artifact (libcnb.Path layer) 1.
Let setting := EvBodyf (Logger r) "Setting %s in PATH" [bin].
Let setenv := EvSetenv "PATH" path.
Let install :=
  EvExecute {| effect.Command := npm;
               effect.Args := ["install"; "solc"; "-g"];
               effect.Stdout := length (heap w);
               effect.Stderr := length (heap w) |}.
Let query :=
  EvExecute {| effect.Command := "solcjs";
               effect.Args := ["--version"];
               effect.Stdout := S (length (heap w));
               effect.Stderr := S (length (heap w)) |}.
Let checking (version : string) :=
  EvBodyf (Logger r) "Checking solc version: %s" [version].
Let writing (version : string) :=
  EvDebugf (Logger r) "Writing Syft SBOM at %s: %+v" sbomPath (dep version).
Let write (version : string) := EvWriteTo sbomPath (dep version).

Inductive rebuilt : (libcnb.Layer * option error) * World -> Prop :=
  | stops_at_extract cause :
      rebuilt
        ((libcnb.zero,
          Some (fmt.Errorf ("unable to expand %s" +:+ LF +:+ "%w")
                  [os.Name artifact] cause)),
         after w (environ w) [] (files w)
           [expanding; extract (Some cause)])
  | stops_at_setenv cause :
      rebuilt
        ((libcnb.zero,
          Some (fmt.Errorf ("unable to set $PATH" +:+ LF +:+ "%w")
                  [] cause)),
         after w (environ w) [] (files w)
           [expanding; extract None; setting; setenv (Some cause)])
  | stops_at_install out cause :
      rebuilt
        ((libcnb.zero,
          Some (fmt.Errorf ("error executing '%s':" +:+ LF
                            +:+ " Combined Output: %s: " +:+ LF +:+ "%w")
                  [npm; printed out] cause)),
         after w path_set [printed out] (files w)
           [expanding; extract None; setting; setenv None;
            install out (Some cause)])
  | stops_at_query out answer cause :
      rebuilt
        ((libcnb.zero,
          Some (fmt.Errorf ("error executing 'solcjs --version':" +:+ LF
                            +:+ " Combined Output: %s: " +:+ LF +:+ "%w")
                  [printed answer] cause)),
         after w path_set [printed out; printed answer] (files w)
           [expanding; extract None; setting; setenv None;
            install out None; query answer (Some cause)])
  | stops_at_write out answer cause :
      let version := strings.TrimSpace (printed answer) in
      rebuilt
        ((libcnb.zero,
          Some (fmt.Errorf ("unable to write SBOM" +:+ LF +:+ "%w")
                  [] cause)),
         after w path_set [printed out; printed answer] (files w)
           [expanding; extract None; setting; setenv None;
            install out None; query answer None; checking version;
            writing version; write version (Some cause)])
  | completes out answer :
      let version := strings.TrimSpace (printed answer) in
      rebuilt
        ((layer, None),
         after w path_set [printed out; printed answer]
           (<[sbomPath := dep version]> (files w))
           [expanding; extract None; setting; setenv None;
            install out None; query answer None; checking version;
            writing version; write version None]).

End Runs.

(** ** Strings *)

Lemma append_assoc (a b c : string) : (a +:+ b) +:+ c = a +:+ b +:+ c.
Proof. induction a as [|x a IH]; cbn; [reflexivity | now f_equal]. Qed.

Lemma append_nil_r (a : string) : a +:+ "" = a.
Proof. induction a as [|x a IH]; cbn; [reflexivity | now f_equal]. Qed.

Lemma contains_here (sub post : string) : contains (sub +:+ post) sub.
Proof. now exists "", post. Qed.

Lemma contains_skip (c : ascii) (s sub : string) :
  contains s sub -> contains (String c s) sub.
Proof. intros (pre & post & ->). now exists (String c pre), post. Qed.

Lemma contains_after (pre s sub : string) :
  contains s sub -> contains (pre +:+ s) sub.
Proof.
  intros (p & post & ->). exists (pre +:+ p), post.
  now rewrite append_assoc.
Qed.

(** ** Buffers *)

Lemma alter_fresh {A : Type} (f : A -> A) (l : list A) (x : A) :
  alter f (length l) (l ++ [x])%list = (l ++ [f x])%list.
Proof. induction l as [|y l IH]; [reflexivity | cbn; f_equal; exact IH]. Qed.

Lemma lookup_fresh {A : Type} (l : list A) (x : A) :
  (l ++ [x])%list !! length l = Some x.
Proof. now apply list_lookup_middle. Qed.

(** Two streams connected to one buffer: the buffer receives everything
    that is printed, in the order it is printed. *)
Lemma write_output_merged (x : effect.Execution)
    (output : list (effect.Stream * string)) (w : World) :
  effect.Stderr x = effect.Stdout x ->
  write_output x output w =
    (tt, {| environ := environ w;
            heap := alter (fun s => s +:+ printed output)
                      (effect.Stdout x) (heap w);
            files := files w; store := store w; trace := trace w |}).
Proof.
  intros Hsame. revert w.
  induction output as [|[s data] rest IH]; intros w; simpl.
  - unfold ret. destruct w; simpl. f_equal. f_equal.
    symmetry. apply list_alter_id. intros; apply append_nil_r.
  - unfold bind, Buffer_Write. rewrite IH. simpl. f_equal. f_equal.
    assert (writer_of x s = effect.Stdout x) as ->
      by (destruct s; simpl; congruence).
    rewrite list_alter_alter_eq. apply list_alter_ext; [|reflexivity].
    intros; simpl. apply append_assoc.
Qed.

(** ** Every run of the function literal is one of [rebuilt] *)

Ltac unfold_calls :=
  unfold check, crush_Extract, os_Setenv, sherpa_AppendToEnvVar,
    os_LookupEnv, bytes_NewBuffer, Executor_Execute, Logger_Bodyf,
    Logger_Debugf, SyftDependency_WriteTo, Buffer_String, ask, emit;
  unfold bind, ret.

Ltac world_step := cbn [fst snd environ heap files store trace
                        effect.Command effect.Args effect.Stdout effect.Stderr].

Lemma rebuild_rebuilt (P : Platform) (r : Solc) (layer : libcnb.Layer)
    (artifact : os.File) (w : World) :
  rebuilt P r layer artifact w (rebuild P r layer artifact w).
Proof.
  unfold rebuild. unfold_calls. world_step.
  destruct (extract_outcome P _ _ _ _) as [cause|]; world_step.
  { rewrite <- app_assoc. simpl app.
    rewrite <- (app_nil_r (heap w)) at 1. apply stops_at_extract. }
  destruct (setenv_outcome P _ _ _) as [cause|]; world_step.
  { rewrite <- !app_assoc. simpl app.
    rewrite <- (app_nil_r (heap w)) at 1. apply stops_at_setenv. }
  rewrite write_output_merged by reflexivity. world_step.
  rewrite alter_fresh. simpl ("" +:+ _).
  destruct (process_outcome P _ _ _) as [out [cause|]]; world_step.
  { rewrite <- !app_assoc. simpl app. rewrite lookup_fresh.
    apply stops_at_install. }
  rewrite write_output_merged by reflexivity. world_step.
  rewrite alter_fresh. simpl ("" +:+ _).
  destruct (process_outcome P _ _ _) as [answer [cause|]]; world_step;
    rewrite lookup_fresh; simpl (default _ _);
    replace (length (heap w ++ [printed out])) with (S (length (heap w)))
      by (rewrite length_app; simpl; lia).
  { rewrite <- !app_assoc. simpl app. apply stops_at_query. }
  destruct (write_outcome P _ _ _) as [cause|]; world_step;
    rewrite <- !app_assoc; simpl app.
  - apply stops_at_write.
  - apply completes.
Qed.

(** ** The layer contributor around the function literal *)

Lemma cached_true (layer : libcnb.Layer) (d : libpak.BuildpackDependency) :
  cached layer d = true <->
  exists m, libcnb.Metadata layer = Some m
            /\ libpak.SHA256 m = libpak.SHA256 d.
Proof.
  unfold cached. destruct (libcnb.Metadata layer) as [m|]; split.
  - intros H. exists m. split; [reflexivity | now apply String.eqb_eq].
  - intros (m' & [= <-] & H). now apply String.eqb_eq.
  - discriminate.
  - intros (m' & [=] & _).
Qed.

Lemma cached_false (layer : libcnb.Layer) (d : libpak.BuildpackDependency) :
  cached layer d = false <->
  libcnb.Metadata layer = None
  \/ exists m, libcnb.Metadata layer = Some m
               /\ libpak.SHA256 m <> libpak.SHA256 d.
Proof.
  unfold cached. destruct (libcnb.Metadata layer) as [m|]; split.
  - intros H. right. exists m. split; [reflexivity | now apply String.eqb_neq].
  - intros [[=] | (m' & [= <-] & H)]. now apply String.eqb_neq.
  - now left.
  - reflexivity.
Qed.

Lemma Contribute_hit (P : Platform) (r : Solc) (layer : libcnb.Layer)
    (w : World) :
  cached layer (libpak_layer.Dependency (LayerContributor r)) = true ->
  Contribute P r layer w = ((layer, None), w).
Proof.
  intros H. unfold Contribute, DependencyLayerContributor_Contribute.
  cbn [LayerContributor libpak_layer.Dependency]. now rewrite H.
Qed.

Lemma Contribute_miss (P : Platform) (r : Solc) (layer : libcnb.Layer)
    (w : World) :
  let d := libpak_layer.Dependency (LayerContributor r) in
  let artifact :=
    libpak.Artifact (libpak_layer.DependencyCache (LayerContributor r)) d in
  cached layer d = false ->
  exists rebuilt_layer err w',
    rebuild P r layer artifact w = ((rebuilt_layer, err), w')
    /\ rebuilt P r layer artifact w ((rebuilt_layer, err), w')
    /\ Contribute P r layer w =
       match err with
       | Some _ => ((libcnb.zero, err), w')
       | None =>
           (({| libcnb.LayerName := libcnb.LayerName rebuilt_layer;
                libcnb.Path := libcnb.Path rebuilt_layer;
                libcnb.Types := libcnb.Types rebuilt_layer;
                libcnb.Metadata := Some d |}, None),
            {| environ := environ w'; heap := heap w'; files := files w';
               store := <[libcnb.Path layer := d]> (store w');
               trace := trace w' |})
       end.
Proof.
  intros d artifact H.
  pose proof (rebuild_rebuilt P r layer artifact w) as Hrun.
  unfold Contribute, DependencyLayerContributor_Contribute.
  cbn [LayerContributor libpak_layer.Dependency libpak_layer.DependencyCache].
  fold d. fold artifact. rewrite H. unfold bind at 1.
  change (rebuild P _ layer) with (rebuild P r layer).
  destruct (rebuild P r layer artifact w) as [[l err] w'].
  exists l, err, w'. repeat split; [exact Hrun|].
  destruct err; reflexivity.
Qed.

Lemma events_since_after (w : World) env bufs fs evs :
  events_since w (after w env bufs fs evs) = evs.
Proof. unfold events_since, after. cbn [trace]. apply drop_app_length. Qed.

Lemma events_since_same (w : World) : events_since w w = [].
Proof. unfold events_since. apply drop_all. Qed.

Lemma events_since_app (w w' : World) (evs : list Event) :
  trace w' = (trace w ++ evs)%list -> events_since w w' = evs.
Proof. unfold events_since. intros ->. apply drop_app_length. Qed.

Lemma lookup_fresh_1 {A : Type} (l k : list A) (x y : A) :
  (l ++ x :: y :: k)%list !! S (length l) = Some y.
Proof.
  rewrite lookup_app_r by lia.
  now replace (S (length l) - length l)%nat with 1%nat by lia.
Qed.

(** The calls of a run, once the run is known to be one of [rebuilt]. *)
Ltac new_events :=
  repeat match goal with
  | H : context [events_since ?w ?w'] |- _ =>
      rewrite (events_since_app w w' _ eq_refl) in H
  | |- context [events_since ?w ?w'] =>
      rewrite (events_since_app w w' _ eq_refl)
  end.

(** Case analysis on a run of the function literal. *)
Ltac by_run P r layer artifact w :=
  let Hrun := fresh "Hrun" in
  pose proof (rebuild_rebuilt P r layer artifact w) as Hrun;
  destruct (rebuild P r layer artifact w) as [[? ?] ?];
  inversion Hrun; subst; clear Hrun;
  cbn [fst snd] in *; new_events.

(** Case analysis on a call of [Contribute] that misses the cache. *)
Ltac by_miss P r layer w H :=
  let Hrun := fresh "Hrun" in
  let Hliteral := fresh "Hliteral" in
  destruct (Contribute_miss P r layer w H)
    as (? & ? & ? & Hliteral & Hrun & ->);
  try rewrite Hliteral; clear Hliteral;
  inversion Hrun; subst; clear Hrun;
  cbn [fst snd] in *; new_events.

(** ** The package at work *)

Example TrimSpace_version_line :
  strings.TrimSpace ("  0.8.20" +:+ LF) = "0.8.20".
Proof. reflexivity. Qed.

(** A no-break space (U+00A0) in front, an en quad (U+2000) behind, and a
    space kept inside. *)
Example TrimSpace_unicode :
  strings.TrimSpace
    (String (ascii_of_nat 194) (String (ascii_of_nat 160)
       ("solc js" +:+
        String (ascii_of_nat 226) (String (ascii_of_nat 128)
          (String (ascii_of_nat 128) "")))))
  = "solc js".
Proof. reflexivity. Qed.

Example Errorf_wraps :
  Error (fmt.Errorf ("unable to write SBOM" +:+ LF +:+ "%w") []
           (errorString "disk full"))
  = "unable to write SBOM" +:+ LF +:+ "disk full".
Proof. reflexivity. Qed.

(** The scenario of the spec: the node descriptor and a layer without
    metadata. The archive is extracted with one path segment discarded,
    the compiler answers 0.8.20, the bill of materials carries that
    version, the descriptor is persisted; the next build, on the restored
    layer, makes no call. *)
Example first_build_then_reuse :
  let first := Contribute Run.healthy Run.solc Run.layer Run.initial in
  let again := Contribute Run.healthy Run.solc Run.restored (snd first) in
  strips (trace (snd first)) = [1]
  /\ version_answers (trace (snd first)) = ["0.8.20" +:+ LF]
  /\ files (snd first) !! "/layers/solc/solc.sbom.syft.json"
     = Some (sbom.NewSyftDependency "/layers/solc/solc"
               [solc_artifact "0.8.20"])
  /\ sbom.PURL (solc_artifact "0.8.20") = "pkg:generic/solc@0.8.20"
  /\ store (snd first) !! "/layers/solc/solc" = Some Run.node
  /\ libcnb.Metadata (fst (fst first)) = Some Run.node
  /\ snd (fst first) = None
  /\ again = ((Run.restored, None), snd first).
Proof. vm_compute. repeat split. Qed.

(** * The claims *)

(** C1, as the code has it. A call of [Contribute] on a layer whose stored
    metadata is present and has the cache key (the checksum) of the
    contributor's descriptor returns the layer as it is, leaves the world
    as it is and so makes no call at all: the function literal is not
    entered. On a layer without metadata, or whose metadata has another
    key, the function literal is entered exactly once and runs the
    pipeline up to its first failing step: the archive is extracted
    exactly once, the calls made are the steps of the pipeline in their
    order from the first on, no step is made twice and none after a step
    that failed. A call that returns a nil error had no failing step; and
    when no step fails, the whole pipeline has run, each setup action and
    the write of the bill of materials exactly once, the call returns a
    nil error and the descriptor is persisted for the layer. *)
Theorem C1_contribute_reuses_or_rebuilds_once (P : Platform) (r : Solc)
    (layer : libcnb.Layer) (w : World) :
  let d := libpak_layer.Dependency (LayerContributor r) in
  let out := Contribute P r layer w in
  let new := events_since w (snd out) in
  (forall m, libcnb.Metadata layer = Some m ->
             libpak.SHA256 m = libpak.SHA256 d ->
             out = ((layer, None), w) /\ new = [])
  /\ (libcnb.Metadata layer = None
      \/ (exists m, libcnb.Metadata layer = Some m
                    /\ libpak.SHA256 m <> libpak.SHA256 d) ->
      count is_entry new = 1%nat
      /\ count is_extract new = 1%nat
      /\ map step_of new `prefix_of` pipeline
      /\ count failed (removelast new) = 0%nat
      /\ (snd (fst out) = None -> count failed new = 0%nat)
      /\ (count failed new = 0%nat ->
          map step_of new = pipeline
          /\ count (made Install) new = 1%nat
          /\ count (made Query) new = 1%nat
          /\ count is_setup new = 2%nat
          /\ count is_write new = 1%nat
          /\ snd (fst out) = None
          /\ store (snd out) !! libcnb.Path layer = Some d)).
Proof.
  intros d out new. subst new out. split.
  - intros m Hm Hkey.
    assert (cached layer d = true) as Hit
      by (apply cached_true; exists m; now split).
    rewrite (Contribute_hit P r layer w Hit). cbn [snd].
    split; [reflexivity | apply events_since_same].
  - intros Hmiss. apply cached_false in Hmiss.
    by_miss P r layer w Hmiss; cbn.
    all: split; [reflexivity|]; split; [reflexivity|].
    all: split; [eexists; reflexivity|]; split; [reflexivity|].
    all: split; [discriminate || reflexivity|].
    all: try discriminate.
    intros _. repeat split. apply lookup_insert_eq.
Qed.

Lemma C1_contribute_reuses_or_rebuilds_once_witness :
  let again := Contribute Run.healthy Run.solc Run.restored Run.initial in
  let first := Contribute Run.healthy Run.solc Run.layer Run.initial in
  let new := events_since Run.initial (snd first) in
  (again = ((Run.restored, None), Run.initial)
   /\ events_since Run.initial (snd again) = [])
  /\ (count is_entry new = 1%nat
      /\ count is_extract new = 1%nat
      /\ map step_of new `prefix_of` pipeline
      /\ count failed (removelast new) = 0%nat)
  /\ (map step_of new = pipeline
      /\ count (made Install) new = 1%nat
      /\ count (made Query) new = 1%nat
      /\ count is_setup new = 2%nat
      /\ count is_write new = 1%nat
      /\ snd (fst first) = None
      /\ store (snd first) !! libcnb.Path Run.layer = Some Run.node).
Proof.
  pose proof (C1_contribute_reuses_or_rebuilds_once
                Run.healthy Run.solc Run.restored Run.initial)
    as (Hhit & _).
  pose proof (C1_contribute_reuses_or_rebuilds_once
                Run.healthy Run.solc Run.layer Run.initial)
    as (_ & Hmiss).
  cbv zeta in *.
  destruct (Hmiss (or_introl eq_refl))
    as (Hentry & Hextract & Hprefix & Hlast & _ & Hwhole).
  split; [apply (Hhit Run.node); reflexivity|].
  split; [repeat split; assumption|].
  apply Hwhole. vm_compute. reflexivity.
Defined.

(** C1, as the claim states it, fails: on a layer without metadata the
    pipeline does not always run once. When the archive does not expand,
    no setup action runs and no bill of materials is written. *)
Lemma C1_pipeline_cut_short :
  let out := Contribute Run.corrupt Run.solc Run.layer Run.initial in
  let new := events_since Run.initial (snd out) in
  libcnb.Metadata Run.layer = None
  /\ count is_extract new = 1%nat
  /\ count is_setup new <> 2%nat
  /\ count is_write new <> 1%nat.
Proof. vm_compute. repeat split; discriminate. Qed.

(** C2, as the code has it. The claim reads the number of discarded path
    segments from the descriptor; the function literal passes the constant
    1 to [crush.Extract]. What holds: in every run the second call of the
    function literal is the extraction of the fetched artifact into
    [layer.Path] with one leading path segment discarded, and it is the
    only extraction; this is the descriptor's [StripComponents] when that
    is 1, as it is for the dependency of buildpack.toml. When the
    extraction fails, the run ends there: it returns the zero layer and the
    error "unable to expand <artifact>" wrapping the cause, no call follows
    the extraction, and environment, buffers, files and persisted metadata
    are untouched. *)
Theorem C2_extraction_discards_one_segment (P : Platform) (r : Solc)
    (layer : libcnb.Layer) (artifact : os.File) (w : World) :
  let out := rebuild P r layer artifact w in
  let new := events_since w (snd out) in
  let d := libpak_layer.Dependency (LayerContributor r) in
  let entry :=
    EvBodyf (Logger r) "Expanding %s to %s"
      [os.Name artifact; filepath_Join P (libcnb.Path layer) "bin"] in
  (exists outcome rest,
     new = entry :: EvExtract artifact (libcnb.Path layer) 1 outcome :: rest)
  /\ strips new = [1]
  /\ (libpak.StripComponents d = 1 ->
      strips new = [libpak.StripComponents d])
  /\ (existsb (reports ExtractionFailed) new = true ->
      exists cause,
        new = [entry; EvExtract artifact (libcnb.Path layer) 1 (Some cause)]
        /\ fst out =
             (libcnb.zero,
              Some (wrapError
                      ("unable to expand " +:+ os.Name artifact +:+ LF
                       +:+ Error cause) cause))
        /\ environ (snd out) = environ w
        /\ heap (snd out) = heap w
        /\ files (snd out) = files w
        /\ store (snd out) = store w).
Proof.
  intros out new d entry. subst entry new out.
  by_run P r layer artifact w; cbn.
  all: split; [eexists; eexists; reflexivity|].
  all: split; [reflexivity|].
  all: split; [now intros ->|].
  all: try discriminate.
  intros _. exists cause. rewrite app_nil_r.
  repeat split. unfold fmt.Errorf. simpl. now rewrite append_nil_r.
Qed.

Lemma C2_extraction_discards_one_segment_witness :
  let artifact := libpak.Artifact Run.cache Run.node in
  let out := rebuild Run.corrupt Run.solc Run.layer artifact Run.initial in
  let new := events_since Run.initial (snd out) in
  strips new = [libpak.StripComponents Run.node]
  /\ exists cause,
       new = [EvBodyf (Logger Run.solc) "Expanding %s to %s"
                [os.Name artifact; "/layers/solc/solc/bin"];
              EvExtract artifact "/layers/solc/solc" 1 (Some cause)]
       /\ fst out =
            (libcnb.zero,
             Some (wrapError
                     ("unable to expand " +:+ os.Name artifact +:+ LF
                      +:+ Error cause) cause))
       /\ environ (snd out) = environ Run.initial
       /\ heap (snd out) = heap Run.initial
       /\ files (snd out) = files Run.initial
       /\ store (snd out) = store Run.initial.
Proof.
  pose proof (C2_extraction_discards_one_segment Run.corrupt Run.solc
                Run.layer (libpak.Artifact Run.cache Run.node) Run.initial)
    as (_ & _ & Hstrip & Hfailed).
  split.
  - apply Hstrip. reflexivity.
  - apply Hfailed. vm_compute. reflexivity.
Defined.

(** C2, as the claim states it, fails: for a descriptor that asks for two
    leading path segments to be discarded, the extraction is asked to
    discard one. *)
Lemma C2_descriptor_strip_ignored :
  strips
    (events_since Run.initial
       (snd (rebuild Run.healthy (NewSolc Run.nested Run.cache) Run.layer
               (libpak.Artifact Run.cache Run.nested) Run.initial)))
  <> [libpak.StripComponents
        (libpak_layer.Dependency
           (LayerContributor (NewSolc Run.nested Run.cache)))].
Proof. vm_compute. discriminate. Qed.

(** C3. In every call of [Contribute] in which a setup action (the npm
    install or the query of the compiler's version) reports failure, the
    function literal returns the zero layer and an error whose message is
    that of a setup failure, and the call returns the same; no bill of
    materials is written, before or after the failure, and the files and
    the persisted layer metadata are after the call what they were
    before. *)
Theorem C3_setup_failure_persists_nothing (P : Platform) (r : Solc)
    (layer : libcnb.Layer) (w : World) :
  let d := libpak_layer.Dependency (LayerContributor r) in
  let artifact :=
    libpak.Artifact (libpak_layer.DependencyCache (LayerContributor r)) d in
  let out := Contribute P r layer w in
  let new := events_since w (snd out) in
  existsb (reports SetupActionFailed) new = true ->
  exists e,
    fst (rebuild P r layer artifact w) = (libcnb.zero, Some e)
    /\ fst out = (libcnb.zero, Some e)
    /\ classify (Error e) = Some SetupActionFailed
    /\ count is_write new = 0%nat
    /\ files (snd out) = files w
    /\ store (snd out) = store w.
Proof.
  intros d artifact out new. subst new out artifact d.
  destruct (cached layer (libpak_layer.Dependency (LayerContributor r)))
    eqn:Hcached.
  - rewrite (Contribute_hit P r layer w Hcached). cbn [snd].
    rewrite events_since_same. discriminate.
  - by_miss P r layer w Hcached; cbn; try discriminate; intros _;
      eexists; repeat split; reflexivity.
Qed.

Lemma C3_setup_failure_persists_nothing_witness :
  let artifact := libpak.Artifact Run.cache Run.node in
  let out := Contribute Run.offline Run.solc Run.layer Run.initial in
  let new := events_since Run.initial (snd out) in
  exists e,
    fst (rebuild Run.offline Run.solc Run.layer artifact Run.initial)
      = (libcnb.zero, Some e)
    /\ fst out = (libcnb.zero, Some e)
    /\ classify (Error e) = Some SetupActionFailed
    /\ count is_write new = 0%nat
    /\ files (snd out) = files Run.initial
    /\ store (snd out) = store Run.initial.
Proof.
  apply (C3_setup_failure_persists_nothing
           Run.offline Run.solc Run.layer Run.initial).
  vm_compute. reflexivity.
Defined.

(** C4. The run of the function literal does not depend on the descriptor
    the contributor was built with. In every run that succeeds the compiler
    was asked for its version exactly once, and the bill of materials
    written for the layer, and on disk after the run, has one entry whose
    version is the answer with its leading and trailing white space
    removed; the entry's CPE and package URL are built from that same
    version. *)
Theorem C4_version_is_the_compilers_answer (P : Platform) (r : Solc)
    (layer : libcnb.Layer) (artifact : os.File) (w : World) :
  let out := rebuild P r layer artifact w in
  let new := events_since w (snd out) in
  let sbomPath := Layer_SBOMPath P layer libcnb.SyftJSON in
  (forall dependency cache,
     rebuild P {| LayerContributor :=
                    libpak_layer.NewDependencyLayerContributor dependency
                      cache (libpak_layer.ExpectedTypes (LayerContributor r));
                  Logger := Logger r;
                  Executor := Executor r |} layer artifact w = out)
  /\ (snd (fst out) = None ->
      exists answer,
        version_answers new = [answer]
        /\ let version := strings.TrimSpace answer in
           let record := solc_artifact version in
           let dep := sbom.NewSyftDependency (libcnb.Path layer) [record] in
           written new = [(sbomPath, dep)]
           /\ files (snd out) !! sbomPath = Some dep
           /\ sbom.Version record = version
           /\ sbom.CPEs record
              = ["cpe:2.3:a:solc:solc:" +:+ version +:+ ":*:*:*:*:*:*:*"]
           /\ sbom.PURL record = "pkg:generic/solc@" +:+ version).
Proof.
  intros out new sbomPath. subst sbomPath new out. split.
  { intros dependency cache. reflexivity. }
  by_run P r layer artifact w; cbn; try discriminate. intros _.
  exists (printed answer). split; [reflexivity|].
  split; [reflexivity|].
  split; [apply lookup_insert_eq|].
  split; [reflexivity|].
  unfold solc_artifact; simpl. now rewrite !append_nil_r.
Qed.

Lemma C4_version_is_the_compilers_answer_witness :
  let artifact := libpak.Artifact Run.cache Run.node in
  let out := rebuild Run.healthy Run.solc Run.layer artifact Run.initial in
  let new := events_since Run.initial (snd out) in
  libpak.Version (libpak_layer.Dependency (LayerContributor Run.solc))
    = "20.10.0"
  /\ exists answer,
       version_answers new = [answer]
       /\ let version := strings.TrimSpace answer in
          let record := solc_artifact version in
          let dep := sbom.NewSyftDependency "/layers/solc/solc" [record] in
          written new = [("/layers/solc/solc.sbom.syft.json", dep)]
          /\ files (snd out) !! "/layers/solc/solc.sbom.syft.json" = Some dep
          /\ sbom.Version record = version
          /\ sbom.CPEs record
             = ["cpe:2.3:a:solc:solc:" +:+ version +:+ ":*:*:*:*:*:*:*"]
          /\ sbom.PURL record = "pkg:generic/solc@" +:+ version.
Proof.
  split; [reflexivity|].
  apply (proj2 (C4_version_is_the_compilers_answer Run.healthy Run.solc
                  Run.layer (libpak.Artifact Run.cache Run.node)
                  Run.initial)).
  reflexivity.
Defined.

(** C5. [BuildProcessTypes] applied to "true" returns exactly one process,
    of type "web", with the command "npm start", marked default; applied to
    any other string, among them "false" and the empty string, it returns
    the empty sequence. It is a function of its arguments alone. *)
Theorem C5_process_flag_mapping (r : Solc) (enableProcess : string) :
  (enableProcess = "true" ->
   exists p,
     fst (BuildProcessTypes r enableProcess) = [p]
     /\ libcnb.Type_ p = "web"
     /\ libcnb.Command p = "npm start"
     /\ libcnb.Default p = true)
  /\ (enableProcess <> "true" -> fst (BuildProcessTypes r enableProcess) = [])
  /\ fst (BuildProcessTypes r "false") = []
  /\ fst (BuildProcessTypes r "") = [].
Proof.
  unfold BuildProcessTypes. repeat split.
  - intros ->. cbn. eexists. repeat split.
  - intros Hother. apply String.eqb_neq in Hother. now rewrite Hother.
Qed.

Lemma C5_process_flag_mapping_witness :
  (exists p,
     fst (BuildProcessTypes Run.solc "true") = [p]
     /\ libcnb.Type_ p = "web"
     /\ libcnb.Command p = "npm start"
     /\ libcnb.Default p = true)
  /\ fst (BuildProcessTypes Run.solc "TRUE") = [].
Proof.
  split.
  - apply (proj1 (C5_process_flag_mapping Run.solc "true")). reflexivity.
  - apply (proj1 (proj2 (C5_process_flag_mapping Run.solc "TRUE"))).
    discriminate.
Defined.

(** C6. In every call of [Contribute] in which writing the bill of
    materials fails, the function literal returns the zero layer and an
    error whose message is that of a failed write and whose cause is the
    write's error, and the call returns the same;
    no bill of materials is on disk that was not there before, and the
    persisted layer metadata is what it was before: no layer is recorded
    as contributed. *)
Theorem C6_write_failure_aborts (P : Platform) (r : Solc)
    (layer : libcnb.Layer) (w : World) :
  let d := libpak_layer.Dependency (LayerContributor r) in
  let artifact :=
    libpak.Artifact (libpak_layer.DependencyCache (LayerContributor r)) d in
  let out := Contribute P r layer w in
  let new := events_since w (snd out) in
  existsb (reports ProvenanceWriteFailed) new = true ->
  exists e cause,
    fst (rebuild P r layer artifact w) = (libcnb.zero, Some e)
    /\ fst out = (libcnb.zero, Some e)
    /\ Unwrap e = Some cause
    /\ Error e = "unable to write SBOM" +:+ LF +:+ Error cause
    /\ classify (Error e) = Some ProvenanceWriteFailed
    /\ written new = []
    /\ files (snd out) = files w
    /\ store (snd out) = store w.
Proof.
  intros d artifact out new. subst new out artifact d.
  destruct (cached layer (libpak_layer.Dependency (LayerContributor r)))
    eqn:Hcached.
  - rewrite (Contribute_hit P r layer w Hcached). cbn [snd].
    rewrite events_since_same. discriminate.
  - by_miss P r layer w Hcached; cbn; try discriminate; intros _.
    eexists; eexists; repeat split; try reflexivity.
    simpl. now rewrite append_nil_r.
Qed.

Lemma C6_write_failure_aborts_witness :
  let artifact := libpak.Artifact Run.cache Run.node in
  let out := Contribute Run.read_only Run.solc Run.layer Run.initial in
  let new := events_since Run.initial (snd out) in
  exists e cause,
    fst (rebuild Run.read_only Run.solc Run.layer artifact Run.initial)
      = (libcnb.zero, Some e)
    /\ fst out = (libcnb.zero, Some e)
    /\ Unwrap e = Some cause
    /\ Error e = "unable to write SBOM" +:+ LF +:+ Error cause
    /\ classify (Error e) = Some ProvenanceWriteFailed
    /\ written new = []
    /\ files (snd out) = files Run.initial
    /\ store (snd out) = store Run.initial.
Proof.
  apply (C6_write_failure_aborts
           Run.read_only Run.solc Run.layer Run.initial).
  vm_compute. reflexivity.
Defined.

(** C7. In every run of the function literal, each setup action has its
    standard output and its standard error connected to one buffer, and
    after the run that buffer holds everything the action printed on either
    stream. When a setup action fails, it is the last call of the run, and
    the error returned wraps its cause and has a message that includes the
    name of the command, the combined output and the cause's message.
    Whatever call fails, the kind of failure (extraction, environment,
    setup action, write of the bill of materials) can be read off the
    message, so failures of different kinds have different messages. *)
Theorem C7_failures_report_output_and_step (P : Platform) (r : Solc)
    (layer : libcnb.Layer) (artifact : os.File) (w : World) :
  let out := rebuild P r layer artifact w in
  let new := events_since w (snd out) in
  Forall (merged (heap (snd out))) new
  /\ (existsb (reports SetupActionFailed) new = true ->
      exists x output cause e,
        last new = Some (EvExecute x output (Some cause))
        /\ snd (fst out) = Some e
        /\ Unwrap e = Some cause
        /\ contains (Error e) (effect.Command x)
        /\ contains (Error e) (printed output)
        /\ contains (Error e) (Error cause))
  /\ (forall k, existsb (reports k) new = true ->
      exists e, snd (fst out) = Some e /\ classify (Error e) = Some k).
Proof.
  intros out new. subst new out.
  by_run P r layer artifact w; cbn [heap after].
  all: split;
    [ repeat constructor; cbn;
      auto using lookup_fresh, lookup_fresh_1, list_lookup_middle | ].
  all: split.
  all: try (cbn; discriminate).
  all: try (intros k; destruct k; cbn; try discriminate; intros _;
            eexists; split; reflexivity).
  - cbn. intros _. do 4 eexists. repeat split.
    + unfold fmt.Errorf. cbn. repeat apply contains_skip.
      apply contains_here.
    + unfold fmt.Errorf. cbn. repeat apply contains_skip.
      apply contains_after. repeat apply contains_skip.
      apply contains_here.
    + unfold fmt.Errorf. cbn. repeat apply contains_skip.
      apply contains_after. repeat apply contains_skip.
      apply contains_after. repeat apply contains_skip.
      apply contains_here.
  - cbn. intros _. do 4 eexists. repeat split.
    + unfold fmt.Errorf. cbn. do 17 apply contains_skip.
      apply (contains_here "solcjs").
    + unfold fmt.Errorf. cbn. repeat apply contains_skip.
      apply contains_here.
    + unfold fmt.Errorf. cbn. repeat apply contains_skip.
      apply contains_after. repeat apply contains_skip.
      apply contains_here.
Qed.

Lemma C7_failures_report_output_and_step_witness :
  let artifact := libpak.Artifact Run.cache Run.node in
  let out := rebuild Run.offline Run.solc Run.layer artifact Run.initial in
  let new := events_since Run.initial (snd out) in
  (exists x output cause e,
     last new = Some (EvExecute x output (Some cause))
     /\ snd (fst out) = Some e
     /\ Unwrap e = Some cause
     /\ contains (Error e) (effect.Command x)
     /\ contains (Error e) (printed output)
     /\ contains (Error e) (Error cause))
  /\ exists e,
       snd (fst out) = Some e
       /\ classify (Error e) = Some SetupActionFailed.
Proof.
  pose proof (C7_failures_report_output_and_step Run.offline Run.solc
                Run.layer (libpak.Artifact Run.cache Run.node) Run.initial)
    as (_ & Hfailed & Hkind).
  split.
  - apply Hfailed. vm_compute. reflexivity.
  - apply (Hkind SetupActionFailed). vm_compute. reflexivity.
Defined.

(** C8. Whatever string it is given, [BuildProcessTypes] returns at most
    one process marked default. *)
Theorem C8_at_most_one_default (r : Solc) (enableProcess : string) :
  (length (List.filter libcnb.Default
             (fst (BuildProcessTypes r enableProcess))) <= 1)%nat.
Proof.
  unfold BuildProcessTypes.
  destruct (String.eqb enableProcess "true"); cbn; lia.
Qed.

(** C9. Whatever descriptor and cache it is given, [NewSolc] constructs
    the layer contributor with the three layer types, build, cache and
    launch, all set. *)
Theorem C9_NewSolc_sets_all_layer_types
    (dependency : libpak.BuildpackDependency)
    (cache : libpak.DependencyCache) :
  libpak_layer.ExpectedTypes (LayerContributor (NewSolc dependency cache))
  = {| libcnb.Build := true; libcnb.Cache := true; libcnb.Launch := true |}.
Proof. reflexivity. Qed.

(** C10. Whatever string it is given, [BuildProcessTypes] returns a nil
    error. *)
Theorem C10_BuildProcessTypes_never_fails (r : Solc)
    (enableProcess : string) :
  snd (BuildProcessTypes r enableProcess) = None.
Proof. reflexivity. Qed.

(** * Further properties of the function literal *)

(** The message of an error made by [fmt.Errorf], against the same text
    written as a concatenation. *)
Ltac message_tail :=
  unfold fmt.Errorf; simpl; repeat (rewrite append_assoc; simpl);
  now rewrite append_nil_r.

(** X1. The function literal fails fast and hides no failure. When it
    returns a nil error, no call reported a failure and the layer returned
    is the layer it was given. When it returns an error, it returns the
    zero layer, exactly one call failed and it is the last call made, the
    error wraps the cause that call reported, and its message ends with a
    line feed followed by the cause's message. *)
Theorem X1_error_is_the_last_calls (P : Platform) (r : Solc)
    (layer : libcnb.Layer) (artifact : os.File) (w : World) :
  let out := rebuild P r layer artifact w in
  let new := events_since w (snd out) in
  match snd (fst out) with
  | None => fst (fst out) = layer /\ count failed new = 0%nat
  | Some e =>
      fst (fst out) = libcnb.zero
      /\ count failed new = 1%nat
      /\ exists ev cause head,
           last new = Some ev
           /\ cause_of ev = Some cause
           /\ Unwrap e = Some cause
           /\ Error e = head +:+ LF +:+ Error cause
  end.
Proof.
  intros out new. subst new out.
  by_run P r layer artifact w; cbn.
  all: try (split; reflexivity).
  all: split; [reflexivity|]; split; [reflexivity|].
  all: eexists; exists cause.
  - exists ("unable to expand " +:+ os.Name artifact).
    repeat split. message_tail.
  - exists "unable to set $PATH".
    repeat split. message_tail.
  - exists ("error executing '"
            +:+ filepath_Join P (filepath_Join P (libcnb.Path layer) "bin")
                  "npm"
            +:+ "':" +:+ LF +:+ " Combined Output: " +:+ printed out +:+ ": ").
    repeat split. message_tail.
  - exists ("error executing 'solcjs --version':" +:+ LF
            +:+ " Combined Output: " +:+ printed answer +:+ ": ").
    repeat split. message_tail.
  - exists "unable to write SBOM".
    repeat split. message_tail.
Qed.

(** X2. The calls of a run are the steps of solc.go in their order, from
    the first on and with none left out: announce, expand, announce, set
    the path, install, query the version, announce, describe, write. Every
    call but the last succeeded, so no call follows a failed one. The run
    returns a nil error exactly when it is the whole list and no call of
    it failed, and it is the whole list whenever no call failed. So when
    the compiler is asked for its version, npm install has succeeded, and
    when the write of the bill of materials is attempted, the compiler
    has answered successfully. *)
Theorem X2_steps_in_order (P : Platform) (r : Solc)
    (layer : libcnb.Layer) (artifact : os.File) (w : World) :
  let out := rebuild P r layer artifact w in
  let new := events_since w (snd out) in
  map step_of new `prefix_of` pipeline
  /\ (2 <= length new)%nat
  /\ count failed (removelast new) = 0%nat
  /\ (snd (fst out) = None <->
      map step_of new = pipeline /\ count failed new = 0%nat)
  /\ (count failed new = 0%nat -> map step_of new = pipeline)
  /\ (existsb (made Query) new = true ->
      existsb (succeeded Install) new = true
      /\ existsb (succeeded SetPath) new = true
      /\ existsb (succeeded Expand) new = true)
  /\ (existsb (made WriteSBOM) new = true ->
      existsb (succeeded Query) new = true
      /\ existsb (succeeded Install) new = true).
Proof.
  intros out new. subst new out.
  by_run P r layer artifact w; cbn.
  all: split; [eexists; reflexivity|].
  all: split; [lia|].
  all: split; [reflexivity|].
  all: split; [split; [discriminate || (split; reflexivity)|]|].
  all: try reflexivity.
  all: try (intros [Hsteps Hfailed]; discriminate).
  all: split; [discriminate || reflexivity|].
  all: split; discriminate || (intros _; repeat split).
Qed.

Lemma X2_steps_in_order_witness :
  let artifact := libpak.Artifact Run.cache Run.node in
  let out := rebuild Run.healthy Run.solc Run.layer artifact Run.initial in
  let new := events_since Run.initial (snd out) in
  map step_of new = pipeline
  /\ (existsb (succeeded Install) new = true
      /\ existsb (succeeded SetPath) new = true
      /\ existsb (succeeded Expand) new = true)
  /\ (existsb (succeeded Query) new = true
      /\ existsb (succeeded Install) new = true).
Proof.
  pose proof (X2_steps_in_order Run.healthy Run.solc Run.layer
                (libpak.Artifact Run.cache Run.node) Run.initial)
    as (_ & _ & _ & _ & Hwhole & Hquery & Hwrite).
  cbv zeta in *. split; [|split].
  - apply Hwhole. vm_compute. reflexivity.
  - apply Hquery. vm_compute. reflexivity.
  - apply Hwrite. vm_compute. reflexivity.
Defined.

(** X3. The only variable of the process environment that the function
    literal sets is PATH, and it sets it at most once. The environment
    after a run is the environment before it with that one assignment
    made, or unchanged when the run ended before it. The assignment is not
    undone: when a setup action or the write of the bill of materials
    fails afterwards, PATH keeps the new value. *)
Theorem X3_only_PATH_is_set (P : Platform) (r : Solc)
    (layer : libcnb.Layer) (artifact : os.File) (w : World) :
  let out := rebuild P r layer artifact w in
  let new := events_since w (snd out) in
  match setenvs new with
  | [] => environ (snd out) = environ w
  | [(key, value)] =>
      key = "PATH" /\ environ (snd out) = <[key := value]> (environ w)
  | _ => False
  end
  /\ (forall key, key <> "PATH" ->
      environ (snd out) !! key = environ w !! key)
  /\ (existsb (reports SetupActionFailed) new
      || existsb (reports ProvenanceWriteFailed) new = true ->
      exists value,
        setenvs new = [("PATH", value)]
        /\ environ (snd out) !! "PATH" = Some value).
Proof.
  intros out new. subst new out.
  by_run P r layer artifact w; cbn.
  all: split; [reflexivity || (split; reflexivity)|].
  all: split;
    [intros key Hkey; rewrite ?lookup_insert_ne by congruence; reflexivity|].
  all: try discriminate.
  all: intros _; eexists; split; [reflexivity | apply lookup_insert_eq].
Qed.

Lemma X3_only_PATH_is_set_witness :
  let artifact := libpak.Artifact Run.cache Run.node in
  let out := rebuild Run.offline Run.solc Run.layer artifact Run.busy in
  let new := events_since Run.busy (snd out) in
  environ (snd out) !! "HOME" = environ Run.busy !! "HOME"
  /\ exists value,
       setenvs new = [("PATH", value)]
       /\ environ (snd out) !! "PATH" = Some value.
Proof.
  pose proof (X3_only_PATH_is_set Run.offline Run.solc Run.layer
                (libpak.Artifact Run.cache Run.node) Run.busy)
    as (_ & Hframe & Hkept).
  split.
  - apply Hframe. discriminate.
  - apply Hkept. vm_compute. reflexivity.
Defined.

(** X4. The function literal calls [WriteTo] at most once, and only for
    the Syft bill of materials of the layer: the path is the layer's Syft
    path and the record describes the layer's directory with the one entry
    of the compiler. A bill of materials is written successfully in the
    runs that return a nil error, and in no other. *)
Theorem X4_sbom_written_once_and_on_success (P : Platform) (r : Solc)
    (layer : libcnb.Layer) (artifact : os.File) (w : World) :
  let out := rebuild P r layer artifact w in
  let new := events_since w (snd out) in
  (count is_write new <= 1)%nat
  /\ Forall (for_sbom_of P layer) new
  /\ match snd (fst out) with
     | None =>
         exists dep,
           written new = [(Layer_SBOMPath P layer libcnb.SyftJSON, dep)]
     | Some _ => written new = []
     end.
Proof.
  intros out new. subst new out.
  by_run P r layer artifact w; cbn.
  all: split; [lia|].
  all: split; [repeat constructor; eexists; reflexivity|].
  all: try reflexivity.
  eexists; reflexivity.
Qed.

(** X5. When the process environment cannot be updated, the function
    literal stops there: it returns the zero layer and the error "unable
    to set $PATH" wrapping the cause; no child process is started, no
    buffer is allocated, no file is written and the environment is as it
    was. The archive has already been extracted by then. *)
Theorem X5_setenv_failure_stops_the_run (P : Platform) (r : Solc)
    (layer : libcnb.Layer) (artifact : os.File) (w : World) :
  let out := rebuild P r layer artifact w in
  let new := events_since w (snd out) in
  existsb (reports EnvironmentUpdateFailed) new = true ->
  exists cause,
    fst out =
      (libcnb.zero,
       Some (wrapError ("unable to set $PATH" +:+ LF +:+ Error cause) cause))
    /\ last new
       = Some (EvSetenv "PATH"
                 (strings.Join
                    (option_list (environ w !! "PATH")
                     ++ [filepath_Join P (libcnb.Path layer) "bin"]) ":")
                 (Some cause))
    /\ In (EvExtract artifact (libcnb.Path layer) 1 None) new
    /\ count is_setup new = 0%nat
    /\ count is_write new = 0%nat
    /\ environ (snd out) = environ w
    /\ heap (snd out) = heap w
    /\ files (snd out) = files w.
Proof.
  intros out new. subst new out.
  by_run P r layer artifact w; cbn; try discriminate.
  intros _. exists cause. rewrite app_nil_r.
  repeat split; [message_tail | auto].
Qed.

Lemma X5_setenv_failure_stops_the_run_witness :
  let artifact := libpak.Artifact Run.cache Run.node in
  let out := rebuild Run.locked_env Run.solc Run.layer artifact Run.initial in
  let new := events_since Run.initial (snd out) in
  exists cause,
    fst out =
      (libcnb.zero,
       Some (wrapError ("unable to set $PATH" +:+ LF +:+ Error cause) cause))
    /\ last new
       = Some (EvSetenv "PATH" "/usr/bin:/layers/solc/solc/bin" (Some cause))
    /\ In (EvExtract artifact "/layers/solc/solc" 1 None) new
    /\ count is_setup new = 0%nat
    /\ count is_write new = 0%nat
    /\ environ (snd out) = environ Run.initial
    /\ heap (snd out) = heap Run.initial
    /\ files (snd out) = files Run.initial.
Proof.
  apply (X5_setenv_failure_stops_the_run Run.locked_env Run.solc Run.layer
           (libpak.Artifact Run.cache Run.node) Run.initial).
  vm_compute. reflexivity.
Defined.

(** ** White space around the version *)

Lemma trim_front_clean sp2 sp3 (s : list ascii) :
  starts_with_space (strings.trim_front sp2 sp3 s) = false.
Proof.
  assert (forall n s, (length s <= n)%nat ->
            starts_with_space (strings.trim_front sp2 sp3 s) = false) as H.
  { clear s. induction n as [|n IH]; intros [|c s1] Hn; simpl in *;
      try reflexivity; try lia.
    destruct (strings.asciiSpace c) eqn:Hc; [apply IH; lia|].
    destruct s1 as [|d s2]; [simpl; exact Hc|].
    destruct (sp2 c d); [apply IH; simpl in Hn; lia|].
    destruct s2 as [|e s3]; [simpl; exact Hc|].
    destruct (sp3 c d e); [apply IH; simpl in Hn; lia|].
    simpl; exact Hc. }
  now apply (H (length s)).
Qed.

Lemma trim_front_suffix sp2 sp3 (s : list ascii) :
  exists k, s = (k ++ strings.trim_front sp2 sp3 s)%list.
Proof.
  assert (forall n s, (length s <= n)%nat ->
            exists k, s = (k ++ strings.trim_front sp2 sp3 s)%list) as H.
  { clear s. induction n as [|n IH]; intros [|c s1] Hn; simpl in *;
      try (now exists []); try lia.
    destruct (strings.asciiSpace c).
    { destruct (IH s1) as [k Hk]; [lia|]. exists (c :: k).
      simpl. now f_equal. }
    destruct s1 as [|d s2]; [now exists []|].
    destruct (sp2 c d).
    { destruct (IH s2) as [k Hk]; [simpl in Hn; lia|]. exists (c :: d :: k).
      simpl. now do 2 f_equal. }
    destruct s2 as [|e s3]; [now exists []|].
    destruct (sp3 c d e); [|now exists []].
    destruct (IH s3) as [k Hk]; [simpl in Hn; lia|]. exists (c :: d :: e :: k).
    simpl. now do 3 f_equal. }
  now apply (H (length s)).
Qed.

Lemma trim_front_spaces sp2 sp3 (ws rest : list ascii) :
  forallb strings.asciiSpace ws = true ->
  strings.trim_front sp2 sp3 (ws ++ rest)
  = strings.trim_front sp2 sp3 rest.
Proof.
  induction ws as [|c ws IH]; simpl; [reflexivity|].
  intros [Hc Hws]%andb_true_iff. rewrite Hc. now apply IH.
Qed.

Lemma trim_front_stops sp2 sp3 (c : ascii) (rest : list ascii) :
  strings.asciiSpace c = false ->
  (forall d, sp2 c d = false) ->
  (forall d e, sp3 c d e = false) ->
  strings.trim_front sp2 sp3 (c :: rest) = c :: rest.
Proof.
  intros Hc H2 H3. simpl. rewrite Hc.
  destruct rest as [|d [|e rest]]; try reflexivity; rewrite H2;
    [reflexivity | now rewrite H3].
Qed.

Lemma plain_byte (c : ascii) (n : N) :
  plain c = true -> (128 <= n)%N -> strings.byte_is c n = false.
Proof.
  unfold plain, strings.byte_is.
  intros [Hc _]%andb_true_iff Hn. apply N.ltb_lt in Hc.
  apply N.eqb_neq. lia.
Qed.

Lemma plain_not_space (c : ascii) :
  plain c = true -> strings.asciiSpace c = false.
Proof.
  unfold plain. intros [_ Hc]%andb_true_iff. now apply negb_true_iff.
Qed.

Lemma plain_leads_no_space (c : ascii) :
  plain c = true ->
  (forall d, strings.space2 c d = false)
  /\ (forall d e, strings.space3 c d e = false).
Proof.
  intros Hc. unfold strings.space2, strings.space3.
  rewrite !(plain_byte c) by (assumption || lia). now split.
Qed.

Lemma plain_ends_no_space (c : ascii) :
  plain c = true ->
  (forall d, strings.space2 d c = false)
  /\ (forall d e, strings.space3 e d c = false).
Proof.
  intros Hc. unfold strings.space2, strings.space3.
  assert ((128 <=? N_of_ascii c)%N = false) as Hlow.
  { unfold plain in Hc. apply andb_true_iff in Hc as [Hc _].
    apply N.ltb_lt in Hc. apply N.leb_gt. lia. }
  rewrite !(plain_byte c) by (assumption || lia). rewrite Hlow.
  split; intros; simpl; now rewrite ?andb_false_r.
Qed.

Lemma list_ascii_of_append (a b : string) :
  list_ascii_of_string (a +:+ b)
  = (list_ascii_of_string a ++ list_ascii_of_string b)%list.
Proof. induction a as [|c a IH]; simpl; [reflexivity | now f_equal]. Qed.

Lemma TrimSpace_clean (s : string) : clean_ends (strings.TrimSpace s) = true.
Proof.
  unfold clean_ends, strings.TrimSpace, strings.TrimRight.
  rewrite list_ascii_of_string_of_list_ascii, rev_involutive.
  rewrite trim_front_clean, andb_true_r. apply negb_true_iff.
  set (t := strings.TrimLeft (list_ascii_of_string s)).
  assert (starts_with_space t = false) as Ht by apply trim_front_clean.
  destruct (trim_front_suffix (fun d c => strings.space2 c d)
              (fun e d c => strings.space3 c d e) (rev t)) as [k Hk].
  apply (f_equal (@rev ascii)) in Hk.
  rewrite rev_involutive, rev_app_distr in Hk.
  destruct (rev (strings.trim_front _ _ (rev t))) as [|c u];
    [reflexivity|].
  rewrite Hk in Ht. exact Ht.
Qed.

Lemma TrimSpace_surrounded (before core after : string) :
  all_space before = true -> all_space after = true ->
  plain_ends core = true ->
  strings.TrimSpace (before +:+ core +:+ after) = core.
Proof.
  unfold all_space, plain_ends, strings.TrimSpace, strings.TrimRight,
    strings.TrimLeft.
  intros Hbefore Hafter Hcore. rewrite !list_ascii_of_append.
  rewrite <- (string_of_list_ascii_of_string core) at 2.
  set (C := list_ascii_of_string core) in *. f_equal.
  rewrite trim_front_spaces by assumption.
  destruct C as [|c C'] eqn:HC; [discriminate|].
  destruct (rev (c :: C')) as [|d D] eqn:HD; [discriminate|].
  apply andb_true_iff in Hcore as [Hc Hd].
  simpl app. rewrite trim_front_stops;
    [| now apply plain_not_space | apply plain_leads_no_space; assumption ..].
  change (c :: (C' ++ list_ascii_of_string after)%list)
    with ((c :: C') ++ list_ascii_of_string after)%list.
  rewrite rev_app_distr, trim_front_spaces, HD.
  - rewrite trim_front_stops;
      [| now apply plain_not_space
       | intros; now apply plain_ends_no_space ..].
    rewrite <- HD. apply rev_involutive.
  - rewrite forallb_forall in *. intros x Hx. apply Hafter.
    now apply in_rev.
Qed.

(** X6. Whatever the compiler printed, a version recorded in the bill of
    materials neither starts nor ends with an ASCII white-space byte
    (space, tab, line feed, vertical tab, form feed, carriage return): the
    line feed that ends the compiler's answer does not reach the record. *)
Theorem X6_recorded_version_has_clean_ends (P : Platform) (r : Solc)
    (layer : libcnb.Layer) (artifact : os.File) (w : World) :
  let out := rebuild P r layer artifact w in
  let new := events_since w (snd out) in
  Forall (fun version => clean_ends version = true) (recorded_versions new).
Proof.
  intros out new. subst new out.
  by_run P r layer artifact w; cbn; repeat constructor.
  apply TrimSpace_clean.
Qed.

(** X7. When the compiler's answer is a text that starts and ends with an
    ASCII byte that is not white space, with nothing but ASCII white space
    before and after it, a run that succeeds records exactly that text as
    the version, white space inside it included. *)
Theorem X7_version_is_the_text_between_spaces (P : Platform) (r : Solc)
    (layer : libcnb.Layer) (artifact : os.File) (w : World)
    (before core after : string) :
  let out := rebuild P r layer artifact w in
  let new := events_since w (snd out) in
  snd (fst out) = None ->
  version_answers new = [before +:+ core +:+ after] ->
  all_space before = true ->
  all_space after = true ->
  plain_ends core = true ->
  recorded_versions new = [core].
Proof.
  intros out new. subst new out.
  by_run P r layer artifact w; cbn; try discriminate.
  intros _ [= Hanswer] Hbefore Hafter Hcore. subst version.
  rewrite Hanswer. f_equal. now apply TrimSpace_surrounded.
Qed.

Lemma X7_version_is_the_text_between_spaces_witness :
  let artifact := libpak.Artifact Run.cache Run.node in
  let out := rebuild Run.healthy Run.solc Run.layer artifact Run.initial in
  recorded_versions (events_since Run.initial (snd out)) = ["0.8.20"].
Proof.
  apply (X7_version_is_the_text_between_spaces Run.healthy Run.solc
           Run.layer (libpak.Artifact Run.cache Run.node) Run.initial
           "" "0.8.20" LF); reflexivity.
Defined.
